(** * Pre-lease property dashboard: the report pipeline of [generate_report.py]

    The script loads a small table of leasing statistics, derives four
    summary numbers, four chart payloads and one display record per row,
    and hands them to an HTML template.  This file embeds the functions
    [load_data], [calculate_metrics], [prepare_chart_data],
    [prepare_table_data], [generate_report] and the command-line entry
    point, and proves the properties the specification states about them.

    Modelling conventions.
    - Unit counts are pandas/Python integers, here [Z].
    - Percentages are binary64 values in the script.  They are modelled by
      the rationals they denote ([Q]); every finite double is a rational,
      and no column holds a missing value (NaN).  [round(x, 1)] of Python
      and of pandas/numpy both pick the nearest multiple of 0.1 and resolve
      an exact tie towards the even last digit; that is what [round] below
      does on the exact value.  The last section evaluates the binary64
      arithmetic itself at the inputs of the counterexamples.
    - A [DataFrame] is an ordered sequence of rows.  The optional column
      ['occupancy_pct'] is present for all rows or for none, hence the two
      constructors of [Frame].
    - Rows that reach the two preparers have [total_units > 0] (the
      loader's filter, the sample literal).  For a zero count pandas
      yields inf or NaN, which are not represented here.
    - [df.sort_values(col)] is called with pandas' default [kind]
      ('quicksort'), whose documented contract is an ascending reordering
      with no promise on the order of equal keys.  The routine is an
      interface ([SortValues]) with its contract ([SortValuesLaws]); a
      stable and an unstable routine that meet it are given.
    - In-place assignment to a column of the caller's frame is explicit
      state passing: the two preparers return the frame they leave behind.
    - Printing, writing the page and raising are a trace of events and a
      result ([IO]). *)

From Stdlib Require Import ZArith QArith Qround Qabs List String Bool Lia Lqa.
From Stdlib Require Import Permutation Sorted Floats.
Import ListNotations.

Local Open Scope string_scope.
Local Open Scope Z_scope.

(** ** Data model *)

(** One unit-type record; the fields are the canonical column names, in the
    order of the sample frame. *)
Record Row : Type := mkRow {
  unit_type : string;
  total_units : Z;
  preleased : Z;
  available : Z;
  new_leases : Z;
  renewals : Z
}.

(** A table with or without the percentage column. *)
Inductive Frame (R : Type) : Type :=
| Plain (rows : list R)
| WithPct (rows : list (R * Q)).

Arguments Plain {R} rows.
Arguments WithPct {R} rows.

Definition DataFrame : Type := Frame Row.

(** [df[...]] for the count columns: the rows without the percentage. *)
Definition frame_rows {R : Type} (df : Frame R) : list R :=
  match df with
  | Plain rows => rows
  | WithPct rows => map fst rows
  end.

(** ['occupancy_pct' in df.columns] *)
Definition has_occupancy_pct {R : Type} (df : Frame R) : bool :=
  match df with
  | Plain _ => false
  | WithPct _ => true
  end.

Definition frame_map {R S : Type} (f : R -> S) (df : Frame R) : Frame S :=
  match df with
  | Plain rows => Plain (map f rows)
  | WithPct rows => WithPct (map (fun rp => (f (fst rp), snd rp)) rows)
  end.

(** [df[mask]] where the mask is computed from the count columns. *)
Definition frame_filter {R : Type} (keep : R -> bool) (df : Frame R) : Frame R :=
  match df with
  | Plain rows => Plain (filter keep rows)
  | WithPct rows => WithPct (filter (fun rp => keep (fst rp)) rows)
  end.

(** [Series.sum()] of an integer column. *)
Definition series_sum (l : list Z) : Z := fold_right Z.add 0 l.

(** [Series.max()]: no value for an empty column (pandas answers NaN,
    and every comparison with NaN is false). *)
Definition Qmax2 (a b : Q) : Q := if Qle_bool a b then b else a.

Definition series_max (l : list Q) : option Q :=
  match l with
  | [] => None
  | x :: t => Some (fold_left Qmax2 t x)
  end.

(** [s.max() <= 1] *)
Definition max_le_1 (l : list Q) : bool :=
  match series_max l with
  | Some m => Qle_bool m 1
  | None => false
  end.

(** ** Rounding *)

Fixpoint pow10 (ndigits : nat) : positive :=
  match ndigits with
  | O => 1%positive
  | S k => (10 * pow10 k)%positive
  end.

(** Nearest integer, an exact half going to the even neighbour. *)
Definition rint (q : Q) : Z :=
  let f := Qfloor q in
  match Qcompare (q - inject_Z f) (1 # 2) with
  | Lt => f
  | Gt => f + 1
  | Eq => if Z.even f then f else f + 1
  end.

(** [round(x, ndigits)] *)
Definition round (x : Q) (ndigits : nat) : Q :=
  Qmake (rint (x * inject_Z (Zpos (pow10 ndigits)))) (pow10 ndigits).

(** Rounding half-up, in the words of the specification: the nearest
    value with [ndigits] decimals, a value half-way between two of them
    going away from zero. *)
Definition round_half_up (x : Q) (ndigits : nat) : Q :=
  let scaled := (x * inject_Z (Zpos (pow10 ndigits)))%Q in
  Qmake (if Qle_bool 0 scaled
         then Qfloor (scaled + (1 # 2))
         else Qceiling (scaled - (1 # 2)))
        (pow10 ndigits).

(** The same rounding on doubles, for the cross-check at the end. *)

(** [numpy.rint] for a double of magnitude below 2^52: adding and taking
    away 2^52 rounds to the nearest integer, a half going to the even one. *)
Definition float_rint (x : float) : float :=
  if PrimFloat.ltb x 0
  then ((x - 0x1p52) + 0x1p52)%float
  else ((x + 0x1p52) - 0x1p52)%float.

(** [Series.round(1)] on doubles. *)
Definition float_round1 (x : float) : float :=
  (float_rint (x * 10) / 10)%float.

(** ** Metrics Calculator *)

Module Metrics.
Record t : Type := mk {
  total_units : Z;
  total_preleased : Z;
  total_available : Z;
  overall_occupancy : Q
}.
End Metrics.

Definition calculate_metrics (df : DataFrame) : Metrics.t :=
  let total_units := series_sum (map total_units (frame_rows df)) in
  let total_preleased := series_sum (map preleased (frame_rows df)) in
  let total_available := series_sum (map available (frame_rows df)) in
  let overall_occupancy :=
    if 0 <? total_units
    then round ((inject_Z total_preleased / inject_Z total_units) * 100) 1
    else 0%Q in
  Metrics.mk total_units total_preleased total_available overall_occupancy.

(** ** Sorting interface

    [df.sort_values('occupancy_pct', ascending=True)] with the default
    [kind]: the result holds the same rows, in ascending order of the key.
    Nothing more is promised by the library for rows with equal keys. *)

Definition occ_le (a b : Row * Q) : Prop := (snd a <= snd b)%Q.

Class SortValues : Type := {
  sort_values : list (Row * Q) -> list (Row * Q)
}.

Class SortValuesLaws (sorter : SortValues) : Prop := {
  sort_values_perm : forall l, Permutation l (sort_values l);
  sort_values_ascending : forall l, StronglySorted occ_le (sort_values l)
}.

(** Insertion sort, the new row going in front of the first row that
    [before] does not put ahead of it. *)
Fixpoint insert_row (before : Q -> Q -> bool) (x : Row * Q)
    (l : list (Row * Q)) : list (Row * Q) :=
  match l with
  | [] => [x]
  | y :: t =>
      if before (snd y) (snd x)
      then y :: insert_row before x t
      else x :: l
  end.

Definition insertion_sort (before : Q -> Q -> bool) (l : list (Row * Q))
  : list (Row * Q) :=
  fold_right (insert_row before) [] l.

Definition Qlt_bool (a b : Q) : bool := negb (Qle_bool b a).

(** Equal keys keep their original order. *)
Definition stable_sort : list (Row * Q) -> list (Row * Q) :=
  insertion_sort Qlt_bool.

(** Equal keys come out in the reverse of their original order. *)
Definition reversing_sort : list (Row * Q) -> list (Row * Q) :=
  insertion_sort Qle_bool.

Definition stable_sorter : SortValues := {| sort_values := stable_sort |}.

Definition reversing_sorter : SortValues := {| sort_values := reversing_sort |}.

(** ** Chart Data Preparer *)

Module OccupancyChart.
Record t : Type := mk { labels : list string; values : list Q }.
End OccupancyChart.

Module DonutChart.
Record t : Type := mk { labels : list string; values : list Z }.
End DonutChart.

Module StackedChart.
Record t : Type := mk {
  labels : list string; new_leases : list Z; renewals : list Z }.
End StackedChart.

Module AvailabilityChart.
Record t : Type := mk {
  labels : list string; preleased : list Z; available : list Z }.
End AvailabilityChart.

Record Charts : Type := mkCharts {
  occupancy_chart : OccupancyChart.t;
  donut_chart : DonutChart.t;
  stacked_chart : StackedChart.t;
  availability_chart : AvailabilityChart.t
}.

(** [round((df['preleased'] / df['total_units']) * 100, 1)], row by row. *)
Definition derived_pct (r : Row) : Q :=
  round ((inject_Z (preleased r) / inject_Z (total_units r)) * 100) 1.

(** [round(df['occupancy_pct'] * 100, 1)], row by row. *)
Definition rescaled_pct (o : Q) : Q := round (o * 100) 1.

Section ChartDataPreparer.
Context {sorter : SortValues}.

(** Returns the payloads and the frame as the assignment to
    [df['occupancy_pct']] leaves it. *)
Definition prepare_chart_data (df : DataFrame) : Charts * DataFrame :=
  let rows :=
    match df with
    | Plain rows => map (fun r => (r, derived_pct r)) rows
    | WithPct rows =>
        if max_le_1 (map snd rows)
        then map (fun rp => (fst rp, rescaled_pct (snd rp))) rows
        else rows
    end in
  let df_sorted := sort_values rows in
  let occupancy_chart :=
    OccupancyChart.mk (map (fun rp => unit_type (fst rp)) df_sorted)
                      (map snd df_sorted) in
  let total_new := series_sum (map (fun rp => new_leases (fst rp)) rows) in
  let total_renewals := series_sum (map (fun rp => renewals (fst rp)) rows) in
  let total_available := series_sum (map (fun rp => available (fst rp)) rows) in
  let donut_chart :=
    DonutChart.mk ["New Leases"; "Renewals"; "Available"]
                  [total_new; total_renewals; total_available] in
  let stacked_chart :=
    StackedChart.mk (map (fun rp => unit_type (fst rp)) rows)
                    (map (fun rp => new_leases (fst rp)) rows)
                    (map (fun rp => renewals (fst rp)) rows) in
  let availability_chart :=
    AvailabilityChart.mk (map (fun rp => unit_type (fst rp)) rows)
                         (map (fun rp => preleased (fst rp)) rows)
                         (map (fun rp => available (fst rp)) rows) in
  (mkCharts occupancy_chart donut_chart stacked_chart availability_chart,
   WithPct rows).
End ChartDataPreparer.

(** ** Table Formatter *)

Module TableRow.
Record t : Type := mk {
  unit_type : string;
  total_units : Z;
  preleased : Z;
  available : Z;
  new_leases : Z;
  renewals : Z;
  occupancy : Q;
  occupancy_class : string
}.
End TableRow.

(** The body of the [for _, row in df.iterrows()] loop. *)
Definition table_row (rp : Row * Q) : TableRow.t :=
  let row := fst rp in
  let occ := snd rp in
  let occ_class :=
    if Qlt_bool occ 70 then "occupancy-low"
    else if Qlt_bool occ 90 then "occupancy-mid"
    else "occupancy-high" in
  TableRow.mk (unit_type row) (total_units row) (preleased row)
              (available row) (new_leases row) (renewals row)
              occ occ_class.

Definition prepare_table_data (df : DataFrame) : list TableRow.t * DataFrame :=
  let rows :=
    match df with
    | Plain rows => map (fun r => (r, derived_pct r)) rows
    | WithPct rows =>
        if max_le_1 (map snd rows)
        then map (fun rp => (fst rp, rescaled_pct (snd rp))) rows
        else rows
    end in
  (map table_row rows, WithPct rows).

(** The percentage column as either preparer resolves it (lines 79-84 and,
    again, 131-136): the name under which the properties below speak of
    the code the two functions repeat. *)
Definition resolved (df : DataFrame) : list (Row * Q) :=
  match df with
  | Plain rows => map (fun r => (r, derived_pct r)) rows
  | WithPct rows =>
      if max_le_1 (map snd rows)
      then map (fun rp => (fst rp, rescaled_pct (snd rp))) rows
      else rows
  end.


(** ** Effects: console, output file, exceptions *)

Inductive Exn : Type := ParserError | TemplateError | OSError.

(** The lines the script prints, by content. *)
Inductive Message : Type :=
| CsvNotFound
| ReportGenerated (path : string)
| TotalUnits (n : Z)
| OverallPreLease (pct : Q)
| ProjectedAvailability (n : Z)
| OpenHint.

Inductive Event : Type :=
| Print (line : Message)
| WriteText (path content : string).

(** A run: what it did to the outside, and its value or the exception
    that aborted it. *)
Definition IO (A : Type) : Type := list Event * (Exn + A).

Definition ret {A : Type} (a : A) : IO A := ([], inr a).

Definition bind {A B : Type} (c : IO A) (k : A -> IO B) : IO B :=
  match c with
  | (out, inl e) => (out, inl e)
  | (out, inr a) => let (out', r) := k a in ((out ++ out')%list, r)
  end.

Definition emit (ev : Event) : IO unit := ([ev], inr tt).

Definition lift {A : Type} (r : Exn + A) : IO A := ([], r).

Notation "x <- c ;; k" := (bind c (fun x => k))
  (at level 61, c at next level, right associativity).
Notation "c ;;; k" := (bind c (fun _ => k))
  (at level 61, right associativity).

(** ** Loader *)

(** A record of the input CSV, under the header names of the export. *)
Record CsvRecord : Type := mkCsv {
  Unit_Type : string;
  Rentable_Units : Z;
  Pre_Leased_Total : Z;
  Pre_Leased_New_Lease : Z;
  Pre_Leased_Renewal : Z;
  Projected_Availability : Z
}.

(** [column_mapping], applied by [df.rename]; ['Pre-Leased - %'] becomes
    ['occupancy_pct'], the optional column of the frame. *)
Definition rename (c : CsvRecord) : Row :=
  {| unit_type := Unit_Type c;
     total_units := Rentable_Units c;
     preleased := Pre_Leased_Total c;
     new_leases := Pre_Leased_New_Lease c;
     renewals := Pre_Leased_Renewal c;
     available := Projected_Availability c |}.

Module Context.
(** The keyword arguments of [template.render]. *)
Record t : Type := mk {
  report_date : string;
  total_units : Z;
  overall_occupancy : Q;
  total_available : Z;
  total_preleased : Z;
  occupancy_chart_data : OccupancyChart.t;
  donut_chart_data : DonutChart.t;
  stacked_chart_data : StackedChart.t;
  availability_chart_data : AvailabilityChart.t;
  table_data : list TableRow.t
}.
End Context.

(** What the script reads from its surroundings.  The template file is
    not part of the sources, so rendering is a parameter. *)
Record Env : Type := mkEnv {
  path_exists : string -> bool;
  read_csv : string -> Exn + Frame CsvRecord;
  today : string;
  render : Context.t -> Exn + string;
  writable : string -> bool;
  absolute : string -> string
}.

(** The surroundings with the parsed file [csv] found at [path]. *)
Definition with_file (env : Env) (path : string) (csv : Frame CsvRecord) : Env :=
  {| path_exists := fun p => (p =? path)%string || path_exists env p;
     read_csv := fun p => if (p =? path)%string then inr csv else read_csv env p;
     today := today env;
     render := render env;
     writable := writable env;
     absolute := absolute env |}.

(** A working directory without any file, a template that renders to
    the empty page, and a writable output path. *)
Definition empty_dir : Env :=
  {| path_exists := fun _ => false;
     read_csv := fun _ => inl OSError;
     today := "November 04, 2026";
     render := fun _ => inr "";
     writable := fun _ => true;
     absolute := fun p => "/srv/dashboard/" ++ p |}.

Definition sample_data : DataFrame :=
  Plain [ mkRow "Studio" 80 72 8 45 27;
          mkRow "1BR" 150 120 30 70 50;
          mkRow "1BR+Den" 100 82 18 50 32;
          mkRow "2BR" 140 112 28 65 47;
          mkRow "2BR+Den" 80 60 20 35 25;
          mkRow "3BR" 50 44 6 25 19 ].

Definition load_data (env : Env) (csv_path : option string) : IO DataFrame :=
  let sample := emit (Print CsvNotFound) ;;; ret sample_data in
  match csv_path with
  | Some path =>
      if negb (path =? "")%string && path_exists env path
      then
        df <- lift (read_csv env path) ;;
        let df := frame_map rename df in
        let df := frame_filter (fun r => 0 <? total_units r) df in
        ret df
      else sample
  | None => sample
  end.

(** ** Report generation *)

Section Report.
Context {sorter : SortValues}.

(** Lines 165-171 and the arguments handed to the template. *)
Definition report_context (env : Env) (csv_path : option string)
  : IO Context.t :=
  df <- load_data env csv_path ;;
  let metrics := calculate_metrics df in
  let (charts, df) := prepare_chart_data df in
  let (table_data, df) := prepare_table_data df in
  ret (Context.mk (today env)
         (Metrics.total_units metrics)
         (Metrics.overall_occupancy metrics)
         (Metrics.total_available metrics)
         (Metrics.total_preleased metrics)
         (occupancy_chart charts)
         (donut_chart charts)
         (stacked_chart charts)
         (availability_chart charts)
         table_data).

Definition generate_report (env : Env) (csv_path : option string)
    (output_path : string) : IO string :=
  ctx <- report_context env csv_path ;;
  html_content <- lift (render env ctx) ;;
  (if writable env output_path
   then emit (WriteText output_path html_content)
   else lift (inl OSError)) ;;;
  emit (Print (ReportGenerated (absolute env output_path))) ;;;
  emit (Print (TotalUnits (Context.total_units ctx))) ;;;
  emit (Print (OverallPreLease (Context.overall_occupancy ctx))) ;;;
  emit (Print (ProjectedAvailability (Context.total_available ctx))) ;;;
  emit (Print OpenHint) ;;;
  ret output_path.

Definition default_csv : string := "Pre-Lease - Summary.csv".

(** The [__main__] block; [argv] is [sys.argv]. *)
Definition main (env : Env) (argv : list string) : IO string :=
  let csv_file :=
    match argv with
    | _ :: arg1 :: _ =>
        if (arg1 =? "--sample")%string then None else Some arg1
    | _ =>
        if path_exists env default_csv then Some default_csv else None
    end in
  generate_report env csv_file "report.html".
End Report.

(** ** Vocabulary of the specification *)





(** ** Tables used as examples *)

(** Percentages given as fractions. *)
Definition fraction_rows : list (Row * Q) :=
  [ (mkRow "Studio" 80 72 8 45 27, 0.9%Q);
    (mkRow "1BR" 150 123 27 70 53, 0.82%Q) ].

(** One fraction among percentages. *)
Definition mixed_rows : list (Row * Q) :=
  [ (mkRow "Studio" 80 72 8 45 27, 0.5%Q);
    (mkRow "1BR" 150 123 27 70 53, 82.345%Q) ].

(** An export with a row of no units and a row of a negative count. *)
Definition export_with_empty_rows : Frame CsvRecord :=
  WithPct [ (mkCsv "Studio" 80 72 45 27 8, 0.9%Q);
            (mkCsv "Not Selected" 0 0 0 0 0, 0%Q);
            (mkCsv "1BR" 150 123 70 53 27, 0.82%Q);
            (mkCsv "Model" (-1) 0 0 0 0, 0%Q) ].

(** ** Observations on a run *)

(** The files a run wrote, with their contents, in order. *)
Fixpoint written (out : list Event) : list (string * string) :=
  match out with
  | [] => []
  | WriteText path content :: t => (path, content) :: written t
  | Print _ :: t => written t
  end.

(** The lines a run printed, in order. *)
Fixpoint printed (out : list Event) : list Message :=
  match out with
  | [] => []
  | Print line :: t => line :: printed t
  | WriteText _ _ :: t => printed t
  end.

(** The closing lines of [generate_report], printed after the page is
    written. *)
Definition summary (env : Env) (output_path : string) (ctx : Context.t)
  : list Message :=
  [ ReportGenerated (absolute env output_path);
    TotalUnits (Context.total_units ctx);
    OverallPreLease (Context.overall_occupancy ctx);
    ProjectedAvailability (Context.total_available ctx);
    OpenHint ].

(** [csv_path and os.path.exists(csv_path)] does not hold: no path, the
    empty path, or a path that names nothing. *)
Definition names_no_file (env : Env) (csv_path : option string) : Prop :=
  match csv_path with
  | None => True
  | Some path => path = "" \/ path_exists env path = false
  end.

(** The context of a run on a table without rows. *)
Definition empty_context (env : Env) : Context.t :=
  Context.mk (today env) 0 0%Q 0 0
    (OccupancyChart.mk [] [])
    (DonutChart.mk ["New Leases"; "Renewals"; "Available"] [0; 0; 0])
    (StackedChart.mk [] [] [])
    (AvailabilityChart.mk [] [] [])
    [].

(** The label and value pairs of the occupancy chart. *)
Definition chart_pairs (chart : OccupancyChart.t) : list (string * Q) :=
  combine (OccupancyChart.labels chart) (OccupancyChart.values chart).

(** The unit type and occupancy pairs of the display rows. *)
Definition table_pairs (table : list TableRow.t) : list (string * Q) :=
  map (fun t => (TableRow.unit_type t, TableRow.occupancy t)) table.

Definition in_percent_range (v : Q) : Prop := (0 <= v)%Q /\ (v <= 100)%Q.

(** ** Surroundings used as examples *)

(** The surroundings with another file system. *)
Definition with_files (env : Env) (exists_ : string -> bool)
    (read : string -> Exn + Frame CsvRecord) : Env :=
  {| path_exists := exists_;
     read_csv := read;
     today := today env;
     render := render env;
     writable := writable env;
     absolute := absolute env |}.

(** The surroundings with a template that does not load. *)
Definition without_template (env : Env) : Env :=
  {| path_exists := path_exists env;
     read_csv := read_csv env;
     today := today env;
     render := fun _ => inl TemplateError;
     writable := writable env;
     absolute := absolute env |}.

(** The surroundings with a directory that cannot be written. *)
Definition read_only (env : Env) : Env :=
  {| path_exists := path_exists env;
     read_csv := read_csv env;
     today := today env;
     render := render env;
     writable := fun _ => false;
     absolute := absolute env |}.

(** A directory whose only file, [data.csv], does not parse. *)
Definition broken_csv_dir : Env :=
  with_files empty_dir (fun p => (p =? "data.csv")%string)
             (fun _ => inl ParserError).

(** An export that gives percentages. *)
Definition export_with_percentages : Frame CsvRecord :=
  WithPct [ (mkCsv "Studio" 80 72 45 27 8, 90.0%Q);
            (mkCsv "1BR" 150 123 70 53 27, 82.345%Q) ].

(** An export in which hardly anything is leased, given as fractions. *)
Definition export_barely_leased : Frame CsvRecord :=
  WithPct [ (mkCsv "Studio" 200 1 1 0 199, 0.005%Q);
            (mkCsv "1BR" 300 3 2 1 297, 0.01%Q) ].

(** * Properties *)

(** ** Comparisons *)

Lemma Qlt_bool_iff (a b : Q) : Qlt_bool a b = true <-> (a < b)%Q.
Proof.
  unfold Qlt_bool. rewrite negb_true_iff.
  split; intro H.
  - apply Qnot_le_lt. intro Hle. apply Qle_bool_iff in Hle. congruence.
  - destruct (Qle_bool b a) eqn:E; [|reflexivity].
    apply Qle_bool_iff in E. exfalso. exact (Qlt_not_le _ _ H E).
Qed.

Lemma Qlt_bool_false_iff (a b : Q) : Qlt_bool a b = false <-> (b <= a)%Q.
Proof.
  unfold Qlt_bool. rewrite negb_false_iff. apply Qle_bool_iff.
Qed.

Lemma Qle_bool_false (a b : Q) : Qle_bool a b = false -> (b < a)%Q.
Proof.
  intro H. apply Qnot_le_lt. intro Hle. apply Qle_bool_iff in Hle. congruence.
Qed.

(** ** Insertion sort meets the sorting interface *)

Section InsertionSort.
Variable before : Q -> Q -> bool.
Hypothesis before_true : forall a b, before a b = true -> (a <= b)%Q.
Hypothesis before_false : forall a b, before a b = false -> (b <= a)%Q.

Lemma insert_row_perm (x : Row * Q) (l : list (Row * Q)) :
  Permutation (x :: l) (insert_row before x l).
Proof.
  induction l as [|y t IH]; simpl.
  - apply Permutation_refl.
  - destruct (before (snd y) (snd x)).
    + eapply perm_trans; [apply perm_swap|]. apply perm_skip. exact IH.
    + apply Permutation_refl.
Qed.

Lemma insert_row_sorted (x : Row * Q) (l : list (Row * Q)) :
  StronglySorted occ_le l -> StronglySorted occ_le (insert_row before x l).
Proof.
  induction l as [|y t IH]; simpl; intro Hs.
  - constructor; constructor.
  - inversion Hs as [|? ? Ht Hy]; subst.
    destruct (before (snd y) (snd x)) eqn:E.
    + constructor; [apply IH; exact Ht|].
      eapply Permutation_Forall; [apply insert_row_perm|].
      constructor; [apply before_true; exact E | exact Hy].
    + constructor; [exact Hs|].
      assert (Hxy : occ_le x y) by (apply before_false; exact E).
      constructor; [exact Hxy|].
      eapply Forall_impl; [|exact Hy].
      intros z Hz. unfold occ_le in *. eapply Qle_trans; eassumption.
Qed.

Lemma insertion_sort_perm (l : list (Row * Q)) :
  Permutation l (insertion_sort before l).
Proof.
  induction l as [|x t IH]; simpl.
  - constructor.
  - eapply perm_trans; [apply perm_skip; exact IH|]. apply insert_row_perm.
Qed.

Lemma insertion_sort_sorted (l : list (Row * Q)) :
  StronglySorted occ_le (insertion_sort before l).
Proof.
  induction l as [|x t IH]; simpl.
  - constructor.
  - apply insert_row_sorted. exact IH.
Qed.
End InsertionSort.

(** The sort that keeps equal keys in their original order meets the
    contract. *)
Lemma stable_sorter_laws : SortValuesLaws stable_sorter.
Proof.
  split; simpl.
  - apply insertion_sort_perm.
  - apply insertion_sort_sorted.
    + intros a b H. apply Qlt_le_weak. apply Qlt_bool_iff. exact H.
    + intros a b H. apply Qlt_bool_false_iff. exact H.
Qed.


(** ** Frames and their resolved percentage column *)

Lemma resolved_rows (df : DataFrame) : map fst (resolved df) = frame_rows df.
Proof.
  destruct df as [rows|rows]; simpl.
  - rewrite map_map. simpl. apply map_id.
  - destruct (max_le_1 (map snd rows)); [|reflexivity].
    rewrite map_map. reflexivity.
Qed.

Lemma prepare_chart_data_frame {sorter : SortValues} (df : DataFrame) :
  snd (prepare_chart_data df) = WithPct (resolved df).
Proof. reflexivity. Qed.

Lemma prepare_table_data_frame (df : DataFrame) :
  snd (prepare_table_data df) = WithPct (resolved df).
Proof. reflexivity. Qed.

Lemma prepare_table_data_rows (df : DataFrame) :
  fst (prepare_table_data df) = map table_row (resolved df).
Proof. reflexivity. Qed.

Lemma map_fst_field {A : Type} (f : Row -> A) (l : list (Row * Q)) :
  map (fun rp => f (fst rp)) l = map f (map fst l).
Proof. rewrite map_map. reflexivity. Qed.

(** ** The table-wide maximum *)

Lemma fold_Qmax2_le (t : list Q) (x b : Q) :
  (fold_left Qmax2 t x <= b)%Q <-> (x <= b)%Q /\ Forall (fun y => (y <= b)%Q) t.
Proof.
  revert x. induction t as [|y t IH]; intro x; simpl.
  - split; [intro H; split; [exact H|constructor] | intros [H _]; exact H].
  - rewrite IH. unfold Qmax2.
    destruct (Qle_bool x y) eqn:E.
    + apply Qle_bool_iff in E. split.
      * intros [Hy Ht]. split; [eapply Qle_trans; eassumption|].
        constructor; assumption.
      * intros [Hx Ht]. inversion Ht; subst. split; assumption.
    + apply Qle_bool_false in E. split.
      * intros [Hx Ht]. split; [exact Hx|]. constructor; [|exact Ht].
        apply Qlt_le_weak. eapply Qlt_le_trans; eassumption.
      * intros [Hx Ht]. inversion Ht; subst. split; assumption.
Qed.

Lemma max_le_1_true (l : list Q) :
  max_le_1 l = true <-> l <> [] /\ Forall (fun y => (y <= 1)%Q) l.
Proof.
  unfold max_le_1. destruct l as [|x t]; simpl.
  - split; [discriminate | intros [H _]; congruence].
  - rewrite Qle_bool_iff, fold_Qmax2_le. split.
    + intros [Hx Ht]. split; [discriminate | constructor; assumption].
    + intros [_ H]. inversion H; subst. split; assumption.
Qed.

Lemma max_le_1_false (l : list Q) :
  Exists (fun y => (1 < y)%Q) l -> max_le_1 l = false.
Proof.
  intro Hex. destruct (max_le_1 l) eqn:E; [|reflexivity].
  apply max_le_1_true in E. destruct E as [_ Hall].
  apply Exists_exists in Hex. destruct Hex as [y [Hin Hy]].
  rewrite Forall_forall in Hall. specialize (Hall y Hin).
  exfalso. exact (Qlt_not_le _ _ Hy Hall).
Qed.

(** ** Metrics *)

Lemma series_sum_nonneg (l : list Z) :
  Forall (fun z => 0 <= z) l -> 0 <= series_sum l.
Proof.
  induction 1 as [|z t Hz _ IH]; simpl; lia.
Qed.

Lemma series_sum_pos (l : list Z) :
  l <> [] -> Forall (fun z => 0 < z) l -> 0 < series_sum l.
Proof.
  intros Hne Hall. destruct Hall as [|z t Hz Ht]; [congruence|].
  simpl. assert (0 <= series_sum t); [|lia].
  apply series_sum_nonneg. eapply Forall_impl; [|exact Ht].
  simpl. intros; lia.
Qed.



(** With at least one row of positive unit count, as every loaded table
    has them, the guard does not fire. *)
Lemma overall_occupancy_loaded (df : DataFrame) :
  frame_rows df <> [] ->
  Forall (fun r => 0 < total_units r) (frame_rows df) ->
  Metrics.overall_occupancy (calculate_metrics df) =
    round (inject_Z (series_sum (map preleased (frame_rows df)))
           / inject_Z (series_sum (map total_units (frame_rows df))) * 100) 1.
Proof.
  intros Hne Hall. unfold calculate_metrics. simpl.
  assert (H : 0 < series_sum (map total_units (frame_rows df))).
  { apply series_sum_pos.
    - destruct (frame_rows df); [congruence | discriminate].
    - apply Forall_map. exact Hall. }
  apply Z.ltb_lt in H. rewrite H. reflexivity.
Qed.

(** C3. The built-in sample table has six rows, and the metrics
    calculator yields on it [total_units = 600], [total_preleased = 490 =
    72+120+82+112+60+44], [total_available = 110 = 8+30+18+28+20+6] and
    [overall_occupancy = round(490/600*100, 1) = 81.7]. *)
Theorem sample_metrics (env : Env) :
  snd (load_data env None) = inr sample_data
  /\ List.length (frame_rows sample_data) = 6%nat
  /\ calculate_metrics sample_data = Metrics.mk 600 490 110 (817 # 10)
  /\ map preleased (frame_rows sample_data) = [72; 120; 82; 112; 60; 44]
  /\ map available (frame_rows sample_data) = [8; 30; 18; 28; 20; 6]
  /\ 72 + 120 + 82 + 112 + 60 + 44 = 490
  /\ 8 + 30 + 18 + 28 + 20 + 6 = 110
  /\ round (490 / 600 * 100) 1 = (817 # 10)%Q
  /\ (817 # 10 == 81.7)%Q.
Proof.
  repeat split; reflexivity.
Qed.

(** ** Occupancy classes *)

Lemma table_row_occupancy (rp : Row * Q) :
  TableRow.occupancy (table_row rp) = snd rp.
Proof. reflexivity. Qed.

Lemma table_row_class (rp : Row * Q) :
  let occ := snd rp in
  let class := TableRow.occupancy_class (table_row rp) in
  (class = "occupancy-low" <-> (occ < 70)%Q)
  /\ (class = "occupancy-mid" <-> (70 <= occ)%Q /\ (occ < 90)%Q)
  /\ (class = "occupancy-high" <-> (90 <= occ)%Q).
Proof.
  simpl. destruct rp as [r occ]. simpl.
  destruct (Qlt_bool occ 70) eqn:E70.
  - apply Qlt_bool_iff in E70.
    assert (H90 : (occ < 90)%Q) by (eapply Qlt_trans; [exact E70 | reflexivity]).
    repeat split; try discriminate; try tauto.
    + intros [H _]. exfalso. exact (Qlt_not_le _ _ E70 H).
    + intro H. exfalso. exact (Qlt_not_le _ _ H90 H).
  - apply Qlt_bool_false_iff in E70.
    destruct (Qlt_bool occ 90) eqn:E90.
    + apply Qlt_bool_iff in E90.
      repeat split; try discriminate; try tauto.
      * intro H. exfalso. exact (Qlt_not_le _ _ H E70).
      * intro H. exfalso. exact (Qlt_not_le _ _ E90 H).
    + apply Qlt_bool_false_iff in E90.
      repeat split; try discriminate; try tauto.
      * intro H. exfalso. exact (Qlt_not_le _ _ H E70).
      * intros [_ H]. exfalso. exact (Qlt_not_le _ _ H E90).
Qed.

(** C4. Every display row of the table formatter carries the resolved
    occupancy of its row and is classed low exactly when that occupancy is
    below 70, mid exactly when it is at least 70 and below 90, high exactly
    when it is at least 90; so 69.9 is low, 70.0 and 89.9 are mid, 90.0 is
    high. *)
Theorem occupancy_class_thresholds (df : DataFrame) :
  map TableRow.occupancy (fst (prepare_table_data df)) = map snd (resolved df)
  /\ Forall (fun t =>
       let occ := TableRow.occupancy t in
       let class := TableRow.occupancy_class t in
       (class = "occupancy-low" <-> (occ < 70)%Q)
       /\ (class = "occupancy-mid" <-> (70 <= occ)%Q /\ (occ < 90)%Q)
       /\ (class = "occupancy-high" <-> (90 <= occ)%Q))
     (fst (prepare_table_data df))
  /\ forall r : Row,
       map TableRow.occupancy_class
         (fst (prepare_table_data
                 (WithPct [(r, 69.9%Q); (r, 70.0%Q); (r, 89.9%Q); (r, 90.0%Q)])))
       = ["occupancy-low"; "occupancy-mid"; "occupancy-mid"; "occupancy-high"].
Proof.
  rewrite prepare_table_data_rows. split; [|split].
  - rewrite map_map. apply map_ext. intro rp. reflexivity.
  - apply Forall_map. apply Forall_forall. intros rp _.
    exact (table_row_class rp).
  - intro r. reflexivity.
Qed.

(** ** Donut chart *)

Lemma donut_chart_value {sorter : SortValues} (df : DataFrame) :
  donut_chart (fst (prepare_chart_data df)) =
    DonutChart.mk ["New Leases"; "Renewals"; "Available"]
      [ series_sum (map new_leases (frame_rows df));
        series_sum (map renewals (frame_rows df));
        series_sum (map available (frame_rows df)) ].
Proof.
  unfold prepare_chart_data. fold (resolved df). simpl.
  rewrite !map_fst_field, !resolved_rows. reflexivity.
Qed.

(** C9. The donut payload has the fixed labels; its three values are the
    table-wide sums of [new_leases], [renewals] and [available], so their
    sum is the sum of the three; and a frame that differs only in its
    percentage column (present or not, whatever its values) gives the same
    payload. *)
Theorem donut_chart_totals {sorter : SortValues} (df df' : DataFrame) :
  frame_rows df' = frame_rows df ->
  let donut := donut_chart (fst (prepare_chart_data df)) in
  let rows := frame_rows df in
  DonutChart.labels donut = ["New Leases"; "Renewals"; "Available"]
  /\ DonutChart.values donut =
       [ series_sum (map new_leases rows);
         series_sum (map renewals rows);
         series_sum (map available rows) ]
  /\ series_sum (DonutChart.values donut) =
       series_sum (map new_leases rows) + series_sum (map renewals rows)
       + series_sum (map available rows)
  /\ donut_chart (fst (prepare_chart_data df')) = donut.
Proof.
  intros Hrows donut rows. subst donut rows.
  rewrite (donut_chart_value df), (donut_chart_value df'), Hrows. simpl.
  repeat split. lia.
Qed.

Lemma donut_chart_totals_witness :
  DonutChart.values
    (donut_chart (fst (@prepare_chart_data stable_sorter sample_data)))
    = [290; 200; 110]
  /\ donut_chart (fst (@prepare_chart_data stable_sorter
       (WithPct (map (fun r => (r, 0.5%Q)) (frame_rows sample_data)))))
     = donut_chart (fst (@prepare_chart_data stable_sorter sample_data)).
Proof.
  pose proof (@donut_chart_totals stable_sorter sample_data
    (WithPct (map (fun r => (r, 0.5%Q)) (frame_rows sample_data)))
    eq_refl) as H.
  split; [exact (proj1 (proj2 H)) | exact (proj2 (proj2 (proj2 H)))].
Defined.

(** ** Fraction detection *)

Lemma occupancy_chart_of_resolved {sorter : SortValues} (df : DataFrame) :
  occupancy_chart (fst (prepare_chart_data df)) =
    OccupancyChart.mk
      (map (fun rp => unit_type (fst rp)) (sort_values (resolved df)))
      (map snd (sort_values (resolved df))).
Proof. reflexivity. Qed.






(** What the two cases give on these tables: fractions become
    percentages; in a table with one value above 1 nothing is scaled and
    nothing is rounded. *)
Example fraction_rows_outputs :
  occupancy_chart (fst (@prepare_chart_data stable_sorter (WithPct fraction_rows)))
    = OccupancyChart.mk ["1BR"; "Studio"] [82.0%Q; 90.0%Q]
  /\ map TableRow.occupancy (fst (prepare_table_data (WithPct fraction_rows)))
     = [90.0%Q; 82.0%Q].
Proof. split; reflexivity. Qed.

Example mixed_rows_outputs :
  occupancy_chart (fst (@prepare_chart_data stable_sorter (WithPct mixed_rows)))
    = OccupancyChart.mk ["Studio"; "1BR"] [0.5%Q; 82.345%Q]
  /\ map TableRow.occupancy (fst (prepare_table_data (WithPct mixed_rows)))
     = [0.5%Q; 82.345%Q].
Proof. split; reflexivity. Qed.

(** ** Order of the occupancy chart *)

(** [stable_sort] is stable: the rows of any one key come out in the
    order they went in. *)
Lemma insert_row_stable (k : Q) (x : Row * Q) (l : list (Row * Q)) :
  filter (fun rp => Qeq_bool (snd rp) k) (insert_row Qlt_bool x l)
  = filter (fun rp => Qeq_bool (snd rp) k) (x :: l).
Proof.
  induction l as [|y t IH]; [reflexivity|].
  simpl insert_row. destruct (Qlt_bool (snd y) (snd x)) eqn:E; [|reflexivity].
  apply Qlt_bool_iff in E.
  cbn [filter] in *. rewrite IH.
  destruct (Qeq_bool (snd x) k) eqn:Ex; [|reflexivity].
  destruct (Qeq_bool (snd y) k) eqn:Ey; [|reflexivity].
  apply Qeq_bool_iff in Ex, Ey. exfalso.
  rewrite Ex, Ey in E. exact (Qlt_irrefl _ E).
Qed.

Lemma stable_sort_stable (k : Q) (l : list (Row * Q)) :
  filter (fun rp => Qeq_bool (snd rp) k) (stable_sort l)
  = filter (fun rp => Qeq_bool (snd rp) k) l.
Proof.
  unfold stable_sort. induction l as [|x t IH]; [reflexivity|].
  simpl insertion_sort. rewrite insert_row_stable.
  cbn [filter]. rewrite IH. reflexivity.
Qed.


Lemma occupancy_chart_labels_perm {sorter : SortValues}
    {laws : SortValuesLaws sorter} (df : DataFrame) :
  Permutation (map unit_type (frame_rows df))
    (OccupancyChart.labels (occupancy_chart (fst (prepare_chart_data df)))).
Proof.
  rewrite occupancy_chart_of_resolved. simpl.
  rewrite <- resolved_rows, <- map_fst_field.
  apply Permutation_map. apply sort_values_perm.
Qed.




Example sample_chart_stable :
  occupancy_chart (fst (@prepare_chart_data stable_sorter sample_data))
  = OccupancyChart.mk
      ["2BR+Den"; "1BR"; "2BR"; "1BR+Den"; "3BR"; "Studio"]
      [75.0%Q; 80.0%Q; 80.0%Q; 82.0%Q; 88.0%Q; 90.0%Q].
Proof. reflexivity. Qed.

Example sample_chart_reversing :
  occupancy_chart (fst (@prepare_chart_data reversing_sorter sample_data))
  = OccupancyChart.mk
      ["2BR+Den"; "2BR"; "1BR"; "1BR+Den"; "3BR"; "Studio"]
      [75.0%Q; 80.0%Q; 80.0%Q; 82.0%Q; 88.0%Q; 90.0%Q].
Proof. reflexivity. Qed.

(** ** The frame between the two preparers *)

Lemma report_context_of_loaded {sorter : SortValues} (env : Env)
    (csv_path : option string) (out : list Event) (df : DataFrame) :
  load_data env csv_path = (out, inr df) ->
  report_context env csv_path =
    (out, inr (Context.mk (today env)
      (Metrics.total_units (calculate_metrics df))
      (Metrics.overall_occupancy (calculate_metrics df))
      (Metrics.total_available (calculate_metrics df))
      (Metrics.total_preleased (calculate_metrics df))
      (occupancy_chart (fst (prepare_chart_data df)))
      (donut_chart (fst (prepare_chart_data df)))
      (stacked_chart (fst (prepare_chart_data df)))
      (availability_chart (fst (prepare_chart_data df)))
      (fst (prepare_table_data (snd (prepare_chart_data df)))))).
Proof.
  intro H. unfold report_context. rewrite H. simpl.
  rewrite app_nil_r. reflexivity.
Qed.

Lemma report_context_of_failed {sorter : SortValues} (env : Env)
    (csv_path : option string) (out : list Event) (e : Exn) :
  load_data env csv_path = (out, inl e) ->
  report_context env csv_path = (out, inl e).
Proof.
  intro H. unfold report_context. rewrite H. reflexivity.
Qed.

(** C10. The chart data preparer leaves the frame it was given with a
    percentage column: derived from the counts when there was none,
    rescaled when the table-wide maximum was at most 1, as it was
    otherwise; the counts are untouched.  Within a run of the pipeline the
    table formatter receives this frame, not the loader's, and makes its
    own fraction detection on it. *)
Theorem chart_preparer_updates_frame {sorter : SortValues} (env : Env)
    (csv_path : option string) (out : list Event) (df : DataFrame) :
  load_data env csv_path = (out, inr df) ->
  let left := snd (prepare_chart_data df) in
  has_occupancy_pct left = true
  /\ frame_rows left = frame_rows df
  /\ left = WithPct
       match df with
       | Plain rows =>
           map (fun r => (r, round (inject_Z (preleased r)
                                    / inject_Z (total_units r) * 100) 1)) rows
       | WithPct rows =>
           if max_le_1 (map snd rows)
           then map (fun rp => (fst rp, round (snd rp * 100) 1)) rows
           else rows
       end
  /\ exists ctx,
       report_context env csv_path = (out, inr ctx)
       /\ Context.table_data ctx = fst (prepare_table_data left)
       /\ Context.table_data ctx =
            map table_row
              match left with
              | Plain rows => map (fun r => (r, derived_pct r)) rows
              | WithPct rows =>
                  if max_le_1 (map snd rows)
                  then map (fun rp => (fst rp, round (snd rp * 100) 1)) rows
                  else rows
              end.
Proof.
  intros Hload left. subst left.
  rewrite prepare_chart_data_frame.
  split; [reflexivity|]. split; [apply resolved_rows|].
  split; [reflexivity|].
  eexists. split; [apply report_context_of_loaded; exact Hload|].
  simpl. split; reflexivity.
Qed.

Lemma chart_preparer_updates_frame_witness :
  has_occupancy_pct (snd (@prepare_chart_data stable_sorter sample_data)) = true
  /\ frame_rows (snd (@prepare_chart_data stable_sorter sample_data))
     = frame_rows sample_data.
Proof.
  pose proof (@chart_preparer_updates_frame stable_sorter
    empty_dir None [Print CsvNotFound] sample_data eq_refl) as H.
  split; [exact (proj1 H) | exact (proj1 (proj2 H))].
Defined.

(** The second detection is made on the frame the first one left.  A table
    whose percentages are all at most 0.01, or a table without the column
    whose derived percentages are all at most 1, is scaled by the chart
    preparer and then once more by the table formatter. *)
Example table_formatter_sees_updated_frame :
  let df := WithPct [(mkRow "Studio" 200 1 199 1 0, 0.005%Q)] in
  map TableRow.occupancy (fst (prepare_table_data df)) = [0.5%Q]
  /\ OccupancyChart.values
       (occupancy_chart (fst (@prepare_chart_data stable_sorter df))) = [0.5%Q]
  /\ map TableRow.occupancy
       (fst (prepare_table_data (snd (@prepare_chart_data stable_sorter df))))
     = [50.0%Q].
Proof. repeat split; reflexivity. Qed.

(** When some resolved value is above 1, the second detection changes
    nothing and the display rows show the values of the chart. *)
Lemma second_detection_keeps (df : DataFrame) :
  Exists (fun rp => (1 < snd rp)%Q) (resolved df) ->
  resolved (WithPct (resolved df)) = resolved df.
Proof.
  intro Hex. simpl. rewrite max_le_1_false; [reflexivity|].
  apply Exists_exists in Hex. destruct Hex as [rp [Hin Hlt]].
  apply Exists_exists. exists (snd rp). split; [|exact Hlt].
  apply in_map. exact Hin.
Qed.

Example table_formatter_rescales_derived :
  let df := Plain [mkRow "Studio" 200 1 199 1 0] in
  map TableRow.occupancy (fst (prepare_table_data df)) = [0.5%Q]
  /\ map TableRow.occupancy
       (fst (prepare_table_data (snd (@prepare_chart_data stable_sorter df))))
     = [50.0%Q].
Proof. split; reflexivity. Qed.

(** ** Loader *)

Lemma frame_rows_map {R S : Type} (f : R -> S) (df : Frame R) :
  frame_rows (frame_map f df) = map f (frame_rows df).
Proof.
  destruct df as [rows|rows]; simpl; [reflexivity|].
  rewrite !map_map. reflexivity.
Qed.

Lemma frame_rows_filter {R : Type} (keep : R -> bool) (df : Frame R) :
  frame_rows (frame_filter keep df) = filter keep (frame_rows df).
Proof.
  destruct df as [rows|rows]; simpl; [reflexivity|].
  induction rows as [|rp t IH]; simpl; [reflexivity|].
  destruct (keep (fst rp)); simpl; rewrite IH; reflexivity.
Qed.

Lemma filter_map_comm {A B : Type} (f : A -> B) (keep : B -> bool) (l : list A) :
  filter keep (map f l) = map f (filter (fun a => keep (f a)) l).
Proof.
  induction l as [|a t IH]; simpl; [reflexivity|].
  destruct (keep (f a)); simpl; rewrite IH; reflexivity.
Qed.

Lemma filter_idem {A : Type} (keep : A -> bool) (l : list A) :
  filter keep (filter keep l) = filter keep l.
Proof.
  induction l as [|a t IH]; simpl; [reflexivity|].
  destruct (keep a) eqn:E; simpl; [rewrite E, IH|]; auto.
Qed.

(** Filtering the file beforehand changes nothing of what is loaded. *)
Lemma load_filter_idem (csv : Frame CsvRecord) :
  frame_filter (fun r => 0 <? total_units r)
    (frame_map rename (frame_filter (fun c => 0 <? Rentable_Units c) csv))
  = frame_filter (fun r => 0 <? total_units r) (frame_map rename csv).
Proof.
  destruct csv as [rows|rows]; simpl; f_equal.
  - rewrite !filter_map_comm. simpl. rewrite filter_idem. reflexivity.
  - rewrite !(filter_map_comm (fun rp : CsvRecord * Q => (rename (fst rp), snd rp))).
    simpl. rewrite filter_idem. reflexivity.
Qed.

Lemma load_data_csv (env : Env) (path : string) (csv : Frame CsvRecord) :
  path <> "" ->
  load_data (with_file env path csv) (Some path) =
    ([], inr (frame_filter (fun r => 0 <? total_units r) (frame_map rename csv))).
Proof.
  intro Hne. unfold load_data. simpl.
  apply String.eqb_neq in Hne. rewrite Hne.
  rewrite String.eqb_refl. reflexivity.
Qed.

Lemma load_data_fallback (env : Env) (csv_path : option string) :
  match csv_path with
  | Some path => path = "" \/ path_exists env path = false
  | None => True
  end ->
  load_data env csv_path = ([Print CsvNotFound], inr sample_data).
Proof.
  destruct csv_path as [path|]; [|reflexivity].
  intros [H|H]; unfold load_data.
  - subst path. reflexivity.
  - rewrite H, andb_false_r. reflexivity.
Qed.

Lemma table_rows_unit_type (df : DataFrame) :
  map TableRow.unit_type (fst (prepare_table_data df))
  = map unit_type (frame_rows df).
Proof.
  rewrite prepare_table_data_rows, <- resolved_rows, !map_map. reflexivity.
Qed.

Lemma table_rows_total_units (df : DataFrame) :
  map TableRow.total_units (fst (prepare_table_data df))
  = map total_units (frame_rows df).
Proof.
  rewrite prepare_table_data_rows, <- resolved_rows, !map_map. reflexivity.
Qed.

Lemma stacked_chart_labels {sorter : SortValues} (df : DataFrame) :
  StackedChart.labels (stacked_chart (fst (prepare_chart_data df)))
  = map unit_type (frame_rows df).
Proof.
  unfold prepare_chart_data. fold (resolved df). simpl.
  rewrite map_fst_field, resolved_rows. reflexivity.
Qed.

Lemma availability_chart_labels {sorter : SortValues} (df : DataFrame) :
  AvailabilityChart.labels (availability_chart (fst (prepare_chart_data df)))
  = map unit_type (frame_rows df).
Proof.
  unfold prepare_chart_data. fold (resolved df). simpl.
  rewrite map_fst_field, resolved_rows. reflexivity.
Qed.

(** C7. Of a CSV file the loader keeps the rows whose [total_units] is
    positive, and nothing derived sees the others: the run is the run on
    the file without them; the metrics sum over the kept rows; the labels
    of every chart and the display rows are those of the kept rows. *)
Theorem nonpositive_rows_dropped {sorter : SortValues}
    {laws : SortValuesLaws sorter} (env : Env)
    (path output_path : string) (csv : Frame CsvRecord) :
  path <> "" ->
  let kept := filter (fun r => 0 <? total_units r) (map rename (frame_rows csv)) in
  let cleaned := frame_filter (fun c => 0 <? Rentable_Units c) csv in
  exists df ctx,
    load_data (with_file env path csv) (Some path) = ([], inr df)
    /\ load_data (with_file env path cleaned) (Some path) = ([], inr df)
    /\ frame_rows df = kept
    /\ Forall (fun r => 0 < total_units r) (frame_rows df)
    /\ report_context (with_file env path csv) (Some path) = ([], inr ctx)
    /\ report_context (with_file env path cleaned) (Some path) = ([], inr ctx)
    /\ generate_report (with_file env path csv) (Some path) output_path
       = generate_report (with_file env path cleaned) (Some path) output_path
    /\ Context.total_units ctx = series_sum (map total_units kept)
    /\ Context.total_preleased ctx = series_sum (map preleased kept)
    /\ Context.total_available ctx = series_sum (map available kept)
    /\ Permutation (map unit_type kept)
         (OccupancyChart.labels (Context.occupancy_chart_data ctx))
    /\ DonutChart.values (Context.donut_chart_data ctx)
       = [ series_sum (map new_leases kept);
           series_sum (map renewals kept);
           series_sum (map available kept) ]
    /\ StackedChart.labels (Context.stacked_chart_data ctx) = map unit_type kept
    /\ AvailabilityChart.labels (Context.availability_chart_data ctx)
       = map unit_type kept
    /\ map TableRow.unit_type (Context.table_data ctx) = map unit_type kept
    /\ Forall (fun t => 0 < TableRow.total_units t) (Context.table_data ctx).
Proof.
  intros Hne kept cleaned.
  pose (df := frame_filter (fun r => 0 <? total_units r) (frame_map rename csv)).
  assert (Hload : load_data (with_file env path csv) (Some path) = ([], inr df))
    by (apply load_data_csv; exact Hne).
  assert (Hload' : load_data (with_file env path cleaned) (Some path) = ([], inr df)).
  { rewrite load_data_csv by exact Hne. unfold cleaned, df.
    rewrite load_filter_idem. reflexivity. }
  assert (Hrows : frame_rows df = kept).
  { unfold df, kept. rewrite frame_rows_filter, frame_rows_map. reflexivity. }
  assert (Hpos : Forall (fun r => 0 < total_units r) (frame_rows df)).
  { rewrite Hrows. unfold kept. apply Forall_forall. intros r Hr.
    apply filter_In in Hr. destruct Hr as [_ Hr]. apply Z.ltb_lt. exact Hr. }
  pose proof (report_context_of_loaded _ _ _ _ Hload) as Hctx.
  pose proof (report_context_of_loaded _ _ _ _ Hload') as Hctx'.
  simpl today in Hctx, Hctx'.
  exists df. eexists.
  split; [exact Hload|]. split; [exact Hload'|].
  split; [exact Hrows|]. split; [exact Hpos|].
  split; [exact Hctx|]. split; [exact Hctx'|].
  split.
  { unfold generate_report. rewrite Hctx, Hctx'. reflexivity. }
  cbn [Context.total_units Context.total_preleased Context.total_available
       Context.occupancy_chart_data Context.donut_chart_data
       Context.stacked_chart_data Context.availability_chart_data
       Context.table_data].
  rewrite <- Hrows.
  split; [reflexivity|]. split; [reflexivity|]. split; [reflexivity|].
  split; [apply occupancy_chart_labels_perm|].
  split; [rewrite donut_chart_value; reflexivity|].
  split; [apply stacked_chart_labels|].
  split; [apply availability_chart_labels|].
  rewrite prepare_chart_data_frame.
  split.
  - rewrite table_rows_unit_type. simpl. rewrite resolved_rows. reflexivity.
  - assert (Ht : map TableRow.total_units
                   (fst (prepare_table_data (WithPct (resolved df))))
                 = map total_units (frame_rows df)).
    { rewrite table_rows_total_units. simpl. rewrite resolved_rows. reflexivity. }
    apply Forall_forall. intros t Hin.
    apply (in_map TableRow.total_units) in Hin. rewrite Ht in Hin.
    apply in_map_iff in Hin. destruct Hin as [r [Hr Hin]].
    rewrite <- Hr. rewrite Forall_forall in Hpos. exact (Hpos r Hin).
Qed.

Lemma nonpositive_rows_dropped_witness :
  exists df,
    load_data (with_file empty_dir "data.csv" export_with_empty_rows)
              (Some "data.csv") = ([], inr df)
    /\ map unit_type (frame_rows df) = ["Studio"; "1BR"]
    /\ Forall (fun r => 0 < total_units r) (frame_rows df).
Proof.
  destruct (@nonpositive_rows_dropped stable_sorter stable_sorter_laws
              empty_dir "data.csv"
              "report.html" export_with_empty_rows)
    as [df [ctx [Hload [_ [Hrows [Hpos _]]]]]].
  - discriminate.
  - exists df. split; [exact Hload|]. split; [|exact Hpos].
    rewrite Hrows. reflexivity.
Defined.

Example export_report_context :
  report_context (sorter := stable_sorter)
    (with_file empty_dir "data.csv" export_with_empty_rows) (Some "data.csv")
  = ([], inr (Context.mk "November 04, 2026" 230 (848 # 10) 35 195
       (OccupancyChart.mk ["1BR"; "Studio"] [82.0%Q; 90.0%Q])
       (DonutChart.mk ["New Leases"; "Renewals"; "Available"] [115; 80; 35])
       (StackedChart.mk ["Studio"; "1BR"] [45; 70] [27; 53])
       (AvailabilityChart.mk ["Studio"; "1BR"] [72; 123] [8; 27])
       [ TableRow.mk "Studio" 80 72 8 45 27 90.0%Q "occupancy-high";
         TableRow.mk "1BR" 150 123 27 70 53 82.0%Q "occupancy-mid" ])).
Proof. reflexivity. Qed.

(** ** Fallback to the sample table *)

Lemma generate_report_same_load {sorter : SortValues} (env : Env)
    (p q : option string) (output_path : string) :
  load_data env p = load_data env q ->
  report_context env p = report_context env q
  /\ generate_report env p output_path = generate_report env q output_path.
Proof.
  intro H.
  assert (Hc : report_context env p = report_context env q)
    by (unfold report_context; rewrite H; reflexivity).
  split; [exact Hc|]. unfold generate_report. rewrite Hc. reflexivity.
Qed.

(** C8. A run on a path that names no file, and a run without argument
    where the default file is not there, load the sample table with the
    same console notice as a run with [--sample] does; the template
    context (metrics, four chart payloads, display rows), the page
    written and the lines printed are the same. *)
Theorem missing_csv_same_as_sample {sorter : SortValues} (env : Env) :
  (forall prog path rest,
     path_exists env path = false ->
     load_data env (Some path) = ([Print CsvNotFound], inr sample_data)
     /\ load_data env (Some path) = load_data env None
     /\ report_context env (Some path) = report_context env None
     /\ main env (prog :: path :: rest) = main env [prog; "--sample"])
  /\ (forall prog,
     path_exists env default_csv = false ->
     main env [prog] = main env [prog; "--sample"]
     /\ main env [] = main env [prog; "--sample"])
  /\ (forall prog rest,
     main env (prog :: "--sample" :: rest) = generate_report env None "report.html").
Proof.
  split; [|split].
  - intros prog path rest Hmiss.
    assert (Hl : load_data env (Some path) = ([Print CsvNotFound], inr sample_data)).
    { apply load_data_fallback. right. exact Hmiss. }
    assert (Hl' : load_data env (Some path) = load_data env None).
    { rewrite Hl. reflexivity. }
    destruct (generate_report_same_load env (Some path) None "report.html" Hl')
      as [Hc Hg].
    repeat split; try assumption.
    unfold main. destruct (path =? "--sample")%string; [reflexivity|].
    simpl. exact Hg.
  - intros prog Hmiss. unfold main. rewrite Hmiss. split; reflexivity.
  - intros prog rest. reflexivity.
Qed.

Lemma missing_csv_same_as_sample_witness :
  main (sorter := stable_sorter) empty_dir ["generate_report.py"; "data.csv"]
    = main (sorter := stable_sorter) empty_dir ["generate_report.py"; "--sample"]
  /\ main (sorter := stable_sorter) empty_dir ["generate_report.py"]
    = main (sorter := stable_sorter) empty_dir ["generate_report.py"; "--sample"].
Proof.
  pose proof (@missing_csv_same_as_sample stable_sorter empty_dir) as [H1 [H2 _]].
  split.
  - exact (proj2 (proj2 (proj2
      (H1 "generate_report.py" "data.csv" [] eq_refl)))).
  - exact (proj1 (H2 "generate_report.py" eq_refl)).
Defined.

Example sample_run :
  main (sorter := stable_sorter) empty_dir ["generate_report.py"; "--sample"]
  = ([ Print CsvNotFound;
       WriteText "report.html" "";
       Print (ReportGenerated "/srv/dashboard/report.html");
       Print (TotalUnits 600);
       Print (OverallPreLease (817 # 10));
       Print (ProjectedAvailability 110);
       Print OpenHint ],
     inr "report.html").
Proof. reflexivity. Qed.

(** ** Rounding *)









Example tie_values :
  Metrics.overall_occupancy
    (calculate_metrics (Plain [mkRow "Studio" 400 1 399 1 0])) = (2 # 10)%Q
  /\ derived_pct (mkRow "Studio" 400 1 399 1 0) = (2 # 10)%Q
  /\ rescaled_pct 0.0025 = (2 # 10)%Q
  /\ round_half_up (1 / 400 * 100) 1 = (3 # 10)%Q
  /\ round_half_up (- (1 # 4)) 1 = (-3 # 10)%Q
  /\ round (- (1 # 4)) 1 = (-2 # 10)%Q.
Proof. repeat split; reflexivity. Qed.

(** ** Binary64 cross-check

    The percentages of the script are doubles.  At the inputs used above
    the double arithmetic is exact, so the half-way cases are half-way
    cases for the script as well, and the result of pandas' rounding
    ([rint(x * 10) / 10], with IEEE round-to-nearest-even) is the one the
    rational model gives. *)

Example binary64_ties_are_exact :
  PrimFloat.eqb ((1 / 400) * 100) 0.25 = true
  /\ PrimFloat.eqb (0x1.47ae147ae147bp-9 * 100) 0.25 = true
  /\ PrimFloat.eqb (float_round1 ((1 / 400) * 100)) (2 / 10) = true
  /\ PrimFloat.eqb (float_round1 (0x1.47ae147ae147bp-9 * 100)) (2 / 10) = true
  /\ PrimFloat.eqb (float_round1 0.75) (8 / 10) = true
  /\ PrimFloat.eqb (float_round1 ((490 / 600) * 100)) (817 / 10) = true.
Proof. repeat split; vm_compute; reflexivity. Qed.

(** The double nearest to 0.005, scaled twice as in a run of the
    pipeline: 0.5 after the chart preparer, 50.0 after the table
    formatter. *)
Example binary64_double_rescale :
  PrimFloat.eqb (float_round1 (0x1.47ae147ae147bp-8 * 100)) 0.5 = true
  /\ PrimFloat.leb (float_round1 (0x1.47ae147ae147bp-8 * 100)) 1 = true
  /\ PrimFloat.eqb (float_round1 (float_round1 (0x1.47ae147ae147bp-8 * 100) * 100)) 50
     = true.
Proof. repeat split; vm_compute; reflexivity. Qed.

(** * Further properties of the code *)

(** ** Runs of [generate_report] *)

Lemma written_app (a b : list Event) :
  written (a ++ b) = (written a ++ written b)%list.
Proof.
  induction a as [|[line|path content] t IH]; simpl; [reflexivity|exact IH|].
  rewrite IH. reflexivity.
Qed.

Lemma printed_app (a b : list Event) :
  printed (a ++ b) = (printed a ++ printed b)%list.
Proof.
  induction a as [|[line|path content] t IH]; simpl; [reflexivity| |exact IH].
  rewrite IH. reflexivity.
Qed.

(** What the loader leaves on the console: nothing, or the notice that
    comes with the sample table. *)
Lemma load_data_trace (env : Env) (csv_path : option string) :
  fst (load_data env csv_path) = []
  \/ load_data env csv_path = ([Print CsvNotFound], inr sample_data).
Proof.
  unfold load_data. destruct csv_path as [path|]; [|right; reflexivity].
  destruct (negb (path =? "")%string && path_exists env path);
    [|right; reflexivity].
  left. simpl. destruct (read_csv env path); reflexivity.
Qed.

Lemma load_trace_quiet (env : Env) (csv_path : option string) :
  written (fst (load_data env csv_path)) = []
  /\ Forall (fun line => line = CsvNotFound)
            (printed (fst (load_data env csv_path))).
Proof.
  destruct (load_data_trace env csv_path) as [H|H]; rewrite H; simpl.
  - split; constructor.
  - split; [reflexivity|]. repeat constructor.
Qed.

Lemma report_context_trace {sorter : SortValues} (env : Env)
    (csv_path : option string) :
  fst (report_context env csv_path) = fst (load_data env csv_path).
Proof.
  destruct (load_data env csv_path) as [out [e|df]] eqn:E.
  - rewrite (report_context_of_failed _ _ _ _ E). reflexivity.
  - rewrite (report_context_of_loaded _ _ _ _ E). reflexivity.
Qed.

(** The run of [generate_report], from what the data preparation gave. *)
Lemma generate_report_steps {sorter : SortValues} (env : Env)
    (csv_path : option string) (output_path : string)
    (lout : list Event) (r : Exn + Context.t) :
  report_context env csv_path = (lout, r) ->
  generate_report env csv_path output_path =
    match r with
    | inl e => (lout, inl e)
    | inr ctx =>
        match render env ctx with
        | inl e => (lout, inl e)
        | inr html =>
            if writable env output_path
            then ((lout ++ WriteText output_path html
                        :: map Print (summary env output_path ctx))%list,
                  inr output_path)
            else (lout, inl OSError)
        end
    end.
Proof.
  intro H. unfold generate_report. rewrite H.
  destruct r as [e|ctx]; [reflexivity|]. simpl.
  destruct (render env ctx) as [e|html]; simpl.
  - rewrite app_nil_r. reflexivity.
  - destruct (writable env output_path); simpl.
    + reflexivity.
    + rewrite app_nil_r. reflexivity.
Qed.

(** X1. A run of [generate_report] that returns has written the page
    exactly once, to the output path, which it returns, with the text the
    template gave for the context of the run; after whatever the loader
    printed it has printed the five closing lines, and nothing else. *)
Theorem report_written_once {sorter : SortValues} (env : Env)
    (csv_path : option string) (output_path : string)
    (out : list Event) (result : string) :
  generate_report env csv_path output_path = (out, inr result) ->
  result = output_path
  /\ exists ctx html,
       snd (report_context env csv_path) = inr ctx
       /\ render env ctx = inr html
       /\ writable env output_path = true
       /\ written out = [(output_path, html)]
       /\ printed out =
            (printed (fst (load_data env csv_path))
             ++ summary env output_path ctx)%list.
Proof.
  intro H.
  destruct (report_context env csv_path) as [lout r] eqn:E.
  rewrite (generate_report_steps _ _ _ _ _ E) in H.
  pose proof (report_context_trace env csv_path) as Ht. rewrite E in Ht.
  simpl in Ht. subst lout.
  destruct r as [e|ctx]; [discriminate H|].
  destruct (render env ctx) as [e|html] eqn:Er; [discriminate H|].
  destruct (writable env output_path) eqn:Ew; [|discriminate H].
  inversion H; subst. split; [reflexivity|].
  exists ctx, html. repeat split; try assumption.
  - rewrite written_app. simpl.
    rewrite (proj1 (load_trace_quiet env csv_path)). reflexivity.
  - rewrite printed_app. reflexivity.
Qed.

Lemma report_written_once_witness :
  written (fst (generate_report (sorter := stable_sorter)
                  empty_dir None "report.html"))
  = [("report.html", "")].
Proof.
  destruct (@report_written_once stable_sorter empty_dir None "report.html"
              _ _ eq_refl) as [_ [ctx [html [_ [Hr [_ [Hw _]]]]]]].
  simpl in Hr. inversion Hr; subst html. exact Hw.
Defined.



(** X3. A file that is there and does not parse ends the run with the
    parser's exception: the sample data are not used instead, nothing is
    printed and nothing is written. *)
Theorem parse_error_aborts {sorter : SortValues} (env : Env)
    (prog path : string) (rest : list string) (e : Exn) :
  path <> "" -> path <> "--sample" ->
  path_exists env path = true ->
  read_csv env path = inl e ->
  load_data env (Some path) = ([], inl e)
  /\ main env (prog :: path :: rest) = ([], inl e).
Proof.
  intros Hne Hns Hex Hrd.
  assert (Hl : load_data env (Some path) = ([], inl e)).
  { unfold load_data. apply String.eqb_neq in Hne. rewrite Hne, Hex. simpl.
    rewrite Hrd. reflexivity. }
  split; [exact Hl|].
  unfold main. apply String.eqb_neq in Hns. rewrite Hns.
  rewrite (generate_report_steps _ _ _ _ _ (report_context_of_failed _ _ _ _ Hl)).
  reflexivity.
Qed.

Lemma parse_error_aborts_witness :
  main (sorter := stable_sorter) broken_csv_dir ["generate_report.py"; "data.csv"]
  = ([], inl ParserError).
Proof.
  refine (proj2 (@parse_error_aborts stable_sorter broken_csv_dir
            "generate_report.py" "data.csv" [] ParserError _ _ eq_refl eq_refl));
    discriminate.
Defined.

(** X4. Once the data are prepared, a template that fails ends the run
    with the template's exception, and an output path that cannot be
    written ends it with [OSError]; in both cases the closing lines are
    not printed. *)
Theorem render_or_write_failure {sorter : SortValues} (env : Env)
    (csv_path : option string) (output_path : string)
    (lout : list Event) (ctx : Context.t) (e : Exn) :
  report_context env csv_path = (lout, inr ctx) ->
  render env ctx = inl e
  \/ (exists html, render env ctx = inr html)
     /\ writable env output_path = false /\ e = OSError ->
  generate_report env csv_path output_path = (lout, inl e).
Proof.
  intros H Hfail. rewrite (generate_report_steps _ _ _ _ _ H).
  destruct Hfail as [He|[[html Hh] [Hw He]]].
  - rewrite He. reflexivity.
  - rewrite Hh, Hw, He. reflexivity.
Qed.

Lemma render_or_write_failure_witness :
  generate_report (sorter := stable_sorter) (without_template empty_dir)
    None "report.html" = ([Print CsvNotFound], inl TemplateError)
  /\ generate_report (sorter := stable_sorter) (read_only empty_dir)
       None "report.html" = ([Print CsvNotFound], inl OSError).
Proof.
  split.
  - exact (@render_or_write_failure stable_sorter (without_template empty_dir)
             None "report.html" _ _ TemplateError eq_refl
             (or_introl eq_refl)).
  - exact (@render_or_write_failure stable_sorter (read_only empty_dir)
             None "report.html" _ _ OSError eq_refl
             (or_intror (conj (ex_intro _ "" eq_refl) (conj eq_refl eq_refl)))).
Defined.

(** ** The command line *)

(** X5. With [--sample], and with an empty path argument, the run does
    not look at the file system: whatever files exist and whatever they
    hold, the run is the sample run, and its first line is the notice. *)
Theorem sample_run_ignores_files {sorter : SortValues} (env : Env)
    (exists_ : string -> bool) (read : string -> Exn + Frame CsvRecord)
    (prog : string) (rest : list string) :
  main (with_files env exists_ read) (prog :: "--sample" :: rest)
    = main env [prog; "--sample"]
  /\ main (with_files env exists_ read) (prog :: "" :: rest)
    = main env [prog; "--sample"]
  /\ exists tail, fst (main env [prog; "--sample"]) = Print CsvNotFound :: tail.
Proof.
  split; [reflexivity|]. split; [reflexivity|].
  unfold main. simpl.
  destruct (report_context env None) as [lout r] eqn:E.
  rewrite (generate_report_steps _ _ _ _ _ E).
  pose proof (report_context_trace env None) as Ht. rewrite E in Ht.
  simpl in Ht. subst lout.
  destruct r as [e|ctx]; [eexists; reflexivity|].
  destruct (render env ctx); [eexists; reflexivity|].
  destruct (writable env "report.html"); eexists; reflexivity.
Qed.

(** X6. Without argument, when the default file is there, the run is the
    run on ['Pre-Lease - Summary.csv']; and arguments after the first are
    never looked at. *)
Theorem default_file_used {sorter : SortValues} (env : Env) (prog : string) :
  path_exists env default_csv = true ->
  main env [prog] = main env [prog; default_csv]
  /\ main env [] = main env [prog; default_csv]
  /\ main env [prog] = generate_report env (Some default_csv) "report.html"
  /\ forall arg rest, main env (prog :: arg :: rest) = main env [prog; arg].
Proof.
  intro H. unfold main. rewrite H. repeat split.
Qed.

Lemma default_file_used_witness :
  main (sorter := stable_sorter)
       (with_file empty_dir default_csv export_with_empty_rows)
       ["generate_report.py"]
  = main (sorter := stable_sorter)
       (with_file empty_dir default_csv export_with_empty_rows)
       ["generate_report.py"; default_csv].
Proof.
  exact (proj1 (@default_file_used stable_sorter
           (with_file empty_dir default_csv export_with_empty_rows)
           "generate_report.py" eq_refl)).
Defined.

(** X7. The loader uses the sample table, and prints its notice,
    exactly when it is given no path, the empty path, or a path that
    names nothing; a file that is there is never replaced by the sample,
    whether it parses or not. *)
Theorem fallback_exactly_when_no_file (env : Env) (csv_path : option string) :
  (names_no_file env csv_path <->
     load_data env csv_path = ([Print CsvNotFound], inr sample_data))
  /\ (names_no_file env csv_path <->
        In (Print CsvNotFound) (fst (load_data env csv_path))).
Proof.
  assert (Hquiet : ~ names_no_file env csv_path ->
                   fst (load_data env csv_path) = []).
  { intro Hn. unfold load_data. destruct csv_path as [path|]; simpl in Hn.
    - destruct (String.eqb_spec path "") as [E|E]; [tauto|].
      destruct (path_exists env path) eqn:Ex; [|tauto].
      simpl. destruct (read_csv env path); reflexivity.
    - tauto. }
  assert (Hdec : names_no_file env csv_path \/ ~ names_no_file env csv_path).
  { destruct csv_path as [path|]; simpl; [|left; exact I].
    destruct (String.eqb_spec path "") as [E|E]; [left; left; exact E|].
    destruct (path_exists env path); [right|left; right; reflexivity].
    intros [H|H]; [contradiction|discriminate]. }
  split; split.
  - apply load_data_fallback.
  - intro H. destruct Hdec as [Hn|Hn]; [exact Hn|].
    apply Hquiet in Hn. rewrite H in Hn. discriminate Hn.
  - intro H. rewrite (load_data_fallback _ _ H). left. reflexivity.
  - intro H. destruct Hdec as [Hn|Hn]; [exact Hn|].
    apply Hquiet in Hn. rewrite Hn in H. contradiction.
Qed.

(** ** Bounds of the rounding *)

Lemma rint_le_int (q : Q) (m : Z) : (q <= inject_Z m)%Q -> rint q <= m.
Proof.
  intro H. unfold rint.
  pose proof (Qfloor_le q) as Hf.
  assert (Hfm : Qfloor q <= m).
  { rewrite Zle_Qle. lra. }
  destruct (Qcompare_spec (q - inject_Z (Qfloor q)) (1 # 2)) as [E|E|E].
  - assert (Qfloor q < m); [rewrite Zlt_Qlt; lra|].
    destruct (Z.even (Qfloor q)); lia.
  - exact Hfm.
  - assert (Qfloor q < m); [rewrite Zlt_Qlt; lra|]. lia.
Qed.

Lemma rint_ge_int (q : Q) (m : Z) : (inject_Z m <= q)%Q -> m <= rint q.
Proof.
  intro H. unfold rint.
  pose proof (Qlt_floor q) as Hf.
  rewrite inject_Z_plus in Hf. change (inject_Z 1) with 1%Q in Hf.
  assert (Hm : m < Qfloor q + 1).
  { rewrite Zlt_Qlt, inject_Z_plus. change (inject_Z 1) with 1%Q. lra. }
  destruct (Qcompare (q - inject_Z (Qfloor q)) (1 # 2));
    [destruct (Z.even (Qfloor q))| |]; lia.
Qed.

(** Rounding to one decimal does not cross a whole number. *)
Lemma round_1_bounds (x : Q) (a b : Z) :
  (inject_Z a <= x)%Q -> (x <= inject_Z b)%Q ->
  (inject_Z a <= round x 1)%Q /\ (round x 1 <= inject_Z b)%Q.
Proof.
  intros Ha Hb. unfold round. simpl pow10.
  assert (H1 : 10 * a <= rint (x * inject_Z 10)).
  { apply rint_ge_int. rewrite inject_Z_mult.
    change (inject_Z 10) with 10%Q. lra. }
  assert (H2 : rint (x * inject_Z 10) <= 10 * b).
  { apply rint_le_int. rewrite inject_Z_mult.
    change (inject_Z 10) with 10%Q. lra. }
  unfold Qle. simpl. lia.
Qed.

Lemma percent_bounds (p u : Z) :
  0 <= p <= u -> 0 < u ->
  (0 <= inject_Z p / inject_Z u * 100)%Q
  /\ (inject_Z p / inject_Z u * 100 <= 100)%Q.
Proof.
  intros [Hp Hpu] Hu.
  assert (Hu' : (inject_Z 0 < inject_Z u)%Q) by (rewrite <- Zlt_Qlt; exact Hu).
  change (inject_Z 0) with 0%Q in Hu'.
  assert (Hp' : (inject_Z 0 <= inject_Z p)%Q) by (rewrite <- Zle_Qle; exact Hp).
  change (inject_Z 0) with 0%Q in Hp'.
  assert (Hpu' : (inject_Z p <= inject_Z u)%Q) by (rewrite <- Zle_Qle; exact Hpu).
  assert (H0 : (0 <= inject_Z p / inject_Z u)%Q).
  { apply Qle_shift_div_l; [exact Hu'|]. lra. }
  assert (H1 : (inject_Z p / inject_Z u <= 1)%Q).
  { apply Qle_shift_div_r; [exact Hu'|]. lra. }
  split; lra.
Qed.

Lemma derived_pct_bounds (r : Row) :
  0 <= preleased r <= total_units r -> 0 < total_units r ->
  in_percent_range (derived_pct r).
Proof.
  intros Hp Hu. destruct (percent_bounds _ _ Hp Hu) as [H0 H1].
  unfold derived_pct. apply (round_1_bounds _ 0 100); assumption.
Qed.

(** ** Sums *)

Lemma series_sum_le (f g : Row -> Z) (rows : list Row) :
  Forall (fun r => f r <= g r) rows ->
  series_sum (map f rows) <= series_sum (map g rows).
Proof.
  induction 1 as [|r t Hr _ IH]; simpl; lia.
Qed.

Lemma series_sum_add (f g : Row -> Z) (rows : list Row) :
  series_sum (map (fun r => f r + g r) rows)
  = series_sum (map f rows) + series_sum (map g rows).
Proof.
  induction rows as [|r t IH]; simpl; lia.
Qed.

(** ** Tables without rows *)

Lemma sort_values_nil {sorter : SortValues} {laws : SortValuesLaws sorter} :
  sort_values [] = [].
Proof.
  apply Permutation_nil. apply sort_values_perm.
Qed.

Lemma filter_none {A : Type} (keep : A -> bool) (l : list A) :
  Forall (fun a => keep a = false) l -> filter keep l = [].
Proof.
  induction 1 as [|a t Ha _ IH]; simpl; [reflexivity|].
  rewrite Ha. exact IH.
Qed.

(** X8. A file in which no row has a positive unit count loads as a
    table without rows: the sample data are not used, no division is
    attempted, every total and the overall occupancy are 0, and the
    charts and the display table are empty. *)
Theorem all_rows_dropped {sorter : SortValues} {laws : SortValuesLaws sorter}
    (env : Env) (path : string) (csv : Frame CsvRecord) :
  path <> "" ->
  Forall (fun c => Rentable_Units c <= 0) (frame_rows csv) ->
  (exists df, load_data (with_file env path csv) (Some path) = ([], inr df)
              /\ frame_rows df = [])
  /\ report_context (with_file env path csv) (Some path)
     = ([], inr (empty_context env)).
Proof.
  intros Hne Hall.
  assert (Hrows : frame_rows (frame_filter (fun r => 0 <? total_units r)
                                (frame_map rename csv)) = []).
  { rewrite frame_rows_filter, frame_rows_map. apply filter_none.
    apply Forall_map. eapply Forall_impl; [|exact Hall].
    intros c Hc. simpl. apply Z.ltb_ge. exact Hc. }
  split.
  { eexists. split; [apply load_data_csv; exact Hne | exact Hrows]. }
  rewrite (report_context_of_loaded _ _ _ _ (load_data_csv env path csv Hne)).
  destruct (frame_filter (fun r => 0 <? total_units r) (frame_map rename csv))
    as [rows|rows]; simpl in Hrows.
  - subst rows. unfold empty_context. simpl. rewrite sort_values_nil. reflexivity.
  - apply map_eq_nil in Hrows. subst rows. unfold empty_context. simpl.
    rewrite sort_values_nil. reflexivity.
Qed.

Lemma all_rows_dropped_witness :
  report_context (sorter := stable_sorter)
    (with_file empty_dir "data.csv"
       (Plain [mkCsv "Not Selected" 0 0 0 0 0; mkCsv "Model" (-1) 0 0 0 0]))
    (Some "data.csv")
  = ([], inr (empty_context empty_dir)).
Proof.
  refine (proj2 (@all_rows_dropped stable_sorter stable_sorter_laws empty_dir
            "data.csv"
            (Plain [mkCsv "Not Selected" 0 0 0 0 0; mkCsv "Model" (-1) 0 0 0 0])
            _ _)).
  - discriminate.
  - repeat constructor; discriminate.
Defined.

(** ** Metrics and payloads *)

(** X9. The metrics are computed from the count columns alone: two
    tables with the same counts have the same metrics whatever their
    percentage column says, so the overall occupancy is never taken from
    the percentages of the file. *)
Theorem metrics_ignore_percentages (df df' : DataFrame) :
  frame_rows df' = frame_rows df ->
  calculate_metrics df' = calculate_metrics df.
Proof.
  intro H. unfold calculate_metrics. rewrite H. reflexivity.
Qed.

Lemma metrics_ignore_percentages_witness :
  calculate_metrics (WithPct (map (fun r => (r, 0.5%Q)) (frame_rows sample_data)))
  = calculate_metrics sample_data.
Proof.
  exact (metrics_ignore_percentages sample_data
           (WithPct (map (fun r => (r, 0.5%Q)) (frame_rows sample_data)))
           eq_refl).
Defined.

(** X10. When no row has more units leased than it has units, and none
    has a negative number leased, the overall occupancy lies between 0
    and 100. *)
Theorem overall_occupancy_in_range (df : DataFrame) :
  Forall (fun r => 0 <= preleased r <= total_units r) (frame_rows df) ->
  in_percent_range (Metrics.overall_occupancy (calculate_metrics df)).
Proof.
  intro Hall. unfold calculate_metrics. simpl.
  destruct (Z.ltb_spec 0 (series_sum (map total_units (frame_rows df))))
    as [Hu|Hu]; [|split; discriminate].
  assert (Hp : 0 <= series_sum (map preleased (frame_rows df))
               <= series_sum (map total_units (frame_rows df))).
  { split.
    - apply series_sum_nonneg. apply Forall_map.
      eapply Forall_impl; [|exact Hall]. simpl. intros; lia.
    - apply series_sum_le. eapply Forall_impl; [|exact Hall].
      simpl. intros; lia. }
  destruct (percent_bounds _ _ Hp Hu) as [H0 H1].
  apply (round_1_bounds _ 0 100); assumption.
Qed.

Lemma overall_occupancy_in_range_witness :
  in_percent_range (Metrics.overall_occupancy (calculate_metrics sample_data)).
Proof.
  apply (overall_occupancy_in_range sample_data).
  repeat constructor; simpl; lia.
Defined.

(** X11. The payloads agree with the metrics: the two arrays of the
    availability chart sum to the total leased and the total available,
    the two arrays of the stacked chart sum to the first two donut
    values, and the third donut value is the total available. *)
Theorem chart_sums_match_metrics {sorter : SortValues} (df : DataFrame) :
  let charts := fst (prepare_chart_data df) in
  let metrics := calculate_metrics df in
  series_sum (AvailabilityChart.preleased (availability_chart charts))
    = Metrics.total_preleased metrics
  /\ series_sum (AvailabilityChart.available (availability_chart charts))
    = Metrics.total_available metrics
  /\ DonutChart.values (donut_chart charts)
    = [ series_sum (StackedChart.new_leases (stacked_chart charts));
        series_sum (StackedChart.renewals (stacked_chart charts));
        Metrics.total_available metrics ].
Proof.
  intros charts metrics. subst charts metrics.
  unfold prepare_chart_data, calculate_metrics. fold (resolved df). simpl.
  rewrite !map_fst_field, !resolved_rows. repeat split.
Qed.

(** X12. On a table whose rows are consistent (new leases and renewals
    make up the leased units, leased and available units make up the
    total), the three donut values add up to the total number of units,
    and the first two to the total leased. *)
Theorem donut_adds_up_to_total_units {sorter : SortValues} (df : DataFrame) :
  Forall (fun r => new_leases r + renewals r = preleased r
                   /\ preleased r + available r = total_units r)
         (frame_rows df) ->
  let donut := donut_chart (fst (prepare_chart_data df)) in
  let metrics := calculate_metrics df in
  series_sum (DonutChart.values donut) = Metrics.total_units metrics
  /\ nth 0 (DonutChart.values donut) 0 + nth 1 (DonutChart.values donut) 0
     = Metrics.total_preleased metrics.
Proof.
  intros Hall donut metrics. subst donut metrics.
  rewrite donut_chart_value. unfold calculate_metrics. simpl.
  assert (H1 : series_sum (map preleased (frame_rows df))
               = series_sum (map new_leases (frame_rows df))
                 + series_sum (map renewals (frame_rows df))).
  { rewrite <- series_sum_add. f_equal. apply map_ext_Forall.
    eapply Forall_impl; [|exact Hall]. simpl. intros r [H _]. lia. }
  assert (H2 : series_sum (map total_units (frame_rows df))
               = series_sum (map preleased (frame_rows df))
                 + series_sum (map available (frame_rows df))).
  { rewrite <- series_sum_add. f_equal. apply map_ext_Forall.
    eapply Forall_impl; [|exact Hall]. simpl. intros r [_ H]. lia. }
  lia.
Qed.

Lemma donut_adds_up_to_total_units_witness :
  series_sum (DonutChart.values
    (donut_chart (fst (@prepare_chart_data stable_sorter sample_data))))
  = Metrics.total_units (calculate_metrics sample_data).
Proof.
  refine (proj1 (@donut_adds_up_to_total_units stable_sorter sample_data _)).
  repeat constructor.
Defined.

(** X13. Sorting for the bar chart leaves the table as it is, and the
    percentage column plays no part: the stacked chart and the
    availability chart list the rows in their original order, each array
    holding the column of its name, and the frame the preparer leaves has
    the rows it was given. *)
Theorem stacked_and_availability_in_row_order {sorter : SortValues}
    (df : DataFrame) :
  stacked_chart (fst (prepare_chart_data df))
    = StackedChart.mk (map unit_type (frame_rows df))
                      (map new_leases (frame_rows df))
                      (map renewals (frame_rows df))
  /\ availability_chart (fst (prepare_chart_data df))
    = AvailabilityChart.mk (map unit_type (frame_rows df))
                           (map preleased (frame_rows df))
                           (map available (frame_rows df))
  /\ frame_rows (snd (prepare_chart_data df)) = frame_rows df.
Proof.
  unfold prepare_chart_data. fold (resolved df). simpl.
  rewrite !map_fst_field, !resolved_rows. repeat split.
Qed.

(** X14. The table formatter gives one display row per row of the
    table, in the same order, with the unit type and the five counts of
    that row; the frame it leaves has the same rows. *)
Theorem table_rows_copy_rows (df : DataFrame) :
  map (fun t => mkRow (TableRow.unit_type t) (TableRow.total_units t)
                      (TableRow.preleased t) (TableRow.available t)
                      (TableRow.new_leases t) (TableRow.renewals t))
      (fst (prepare_table_data df))
    = frame_rows df
  /\ List.length (fst (prepare_table_data df)) = List.length (frame_rows df)
  /\ frame_rows (snd (prepare_table_data df)) = frame_rows df.
Proof.
  rewrite prepare_table_data_rows, prepare_table_data_frame. simpl.
  rewrite <- (resolved_rows df) at 1 2.
  split; [|split].
  - rewrite !map_map. apply map_ext. intros [[u a b c d e] o]. reflexivity.
  - rewrite !length_map. reflexivity.
  - apply resolved_rows.
Qed.

(** ** Chart and table of one run *)

Lemma combine_map_same {A B C : Type} (f : A -> B) (g : A -> C) (l : list A) :
  combine (map f l) (map g l) = map (fun a => (f a, g a)) l.
Proof.
  induction l as [|a t IH]; simpl; [reflexivity|]. rewrite IH. reflexivity.
Qed.

Lemma chart_pairs_resolved {sorter : SortValues} {laws : SortValuesLaws sorter}
    (df : DataFrame) :
  Permutation (chart_pairs (occupancy_chart (fst (prepare_chart_data df))))
              (map (fun rp => (unit_type (fst rp), snd rp)) (resolved df)).
Proof.
  rewrite occupancy_chart_of_resolved. unfold chart_pairs. simpl.
  rewrite combine_map_same. apply Permutation_map.
  apply Permutation_sym. apply sort_values_perm.
Qed.

Lemma table_pairs_after_chart {sorter : SortValues} (df : DataFrame) :
  table_pairs (fst (prepare_table_data (snd (prepare_chart_data df))))
  = map (fun rp => (unit_type (fst rp), snd rp)) (resolved (WithPct (resolved df))).
Proof.
  rewrite prepare_chart_data_frame, prepare_table_data_rows.
  unfold table_pairs. rewrite map_map. reflexivity.
Qed.

Lemma resolved_unchanged (rows : list (Row * Q)) :
  Exists (fun rp => (1 < snd rp)%Q) rows -> resolved (WithPct rows) = rows.
Proof.
  intro Hex. simpl. rewrite max_le_1_false; [reflexivity|].
  apply Exists_exists in Hex. destruct Hex as [rp [Hin Hlt]].
  apply Exists_exists. exists (snd rp). split; [|exact Hlt].
  apply in_map. exact Hin.
Qed.

Lemma resolved_rescaled (rows : list (Row * Q)) :
  Forall (fun rp => (snd rp <= 1)%Q) rows ->
  resolved (WithPct rows) = map (fun rp => (fst rp, round (snd rp * 100) 1)) rows.
Proof.
  intro Hall. simpl. destruct rows as [|rp t]; [reflexivity|].
  assert (H : max_le_1 (map snd (rp :: t)) = true).
  { apply max_le_1_true. split; [discriminate|]. apply Forall_map. exact Hall. }
  rewrite H. reflexivity.
Qed.

(** X15. In a run in which some resolved percentage is above 1, the
    display rows show, for each unit type, the percentage the occupancy
    chart shows. *)
Theorem table_agrees_with_chart {sorter : SortValues}
    {laws : SortValuesLaws sorter} (env : Env) (csv_path : option string)
    (out : list Event) (df : DataFrame) :
  load_data env csv_path = (out, inr df) ->
  Exists (fun rp => (1 < snd rp)%Q) (resolved df) ->
  exists ctx,
    report_context env csv_path = (out, inr ctx)
    /\ Permutation (chart_pairs (Context.occupancy_chart_data ctx))
                   (table_pairs (Context.table_data ctx)).
Proof.
  intros Hload Hex. eexists.
  split; [apply report_context_of_loaded; exact Hload|].
  cbn [Context.occupancy_chart_data Context.table_data].
  rewrite table_pairs_after_chart, (resolved_unchanged _ Hex).
  apply chart_pairs_resolved.
Qed.

Lemma table_agrees_with_chart_witness :
  exists ctx,
    report_context (sorter := stable_sorter) empty_dir None
      = ([Print CsvNotFound], inr ctx)
    /\ Permutation (chart_pairs (Context.occupancy_chart_data ctx))
                   (table_pairs (Context.table_data ctx)).
Proof.
  apply (@table_agrees_with_chart stable_sorter stable_sorter_laws empty_dir
           None [Print CsvNotFound] sample_data eq_refl).
  apply Exists_cons_hd. reflexivity.
Defined.

(** X16. In a run in which every resolved percentage is at most 1 (the
    file gives fractions of at most 0.01, or no unit type is leased
    beyond 1 percent), the table formatter scales the resolved column
    once more: each display row shows 100 times the chart's value for
    its unit type, rounded to one decimal. *)
Theorem table_rescales_chart_values {sorter : SortValues}
    {laws : SortValuesLaws sorter} (env : Env) (csv_path : option string)
    (out : list Event) (df : DataFrame) :
  load_data env csv_path = (out, inr df) ->
  Forall (fun rp => (snd rp <= 1)%Q) (resolved df) ->
  exists ctx,
    report_context env csv_path = (out, inr ctx)
    /\ Permutation
         (map (fun lv => (fst lv, round (snd lv * 100) 1))
              (chart_pairs (Context.occupancy_chart_data ctx)))
         (table_pairs (Context.table_data ctx)).
Proof.
  intros Hload Hall. eexists.
  split; [apply report_context_of_loaded; exact Hload|].
  cbn [Context.occupancy_chart_data Context.table_data].
  rewrite table_pairs_after_chart, (resolved_rescaled _ Hall), map_map. simpl.
  eapply perm_trans; [apply Permutation_map; apply chart_pairs_resolved|].
  rewrite map_map. apply Permutation_refl.
Qed.

Lemma table_rescales_chart_values_witness :
  exists ctx,
    report_context (sorter := stable_sorter)
      (with_file empty_dir "data.csv" export_barely_leased) (Some "data.csv")
      = ([], inr ctx)
    /\ Permutation
         (map (fun lv => (fst lv, round (snd lv * 100) 1))
              (chart_pairs (Context.occupancy_chart_data ctx)))
         (table_pairs (Context.table_data ctx)).
Proof.
  apply (@table_rescales_chart_values stable_sorter stable_sorter_laws
           (with_file empty_dir "data.csv" export_barely_leased)
           (Some "data.csv") []
           (WithPct [ (mkRow "Studio" 200 1 199 1 0, 0.005%Q);
                      (mkRow "1BR" 300 3 297 2 1, 0.01%Q) ])
           eq_refl).
  repeat constructor; discriminate.
Defined.

Example barely_leased_run :
  exists ctx,
    report_context (sorter := stable_sorter)
      (with_file empty_dir "data.csv" export_barely_leased) (Some "data.csv")
      = ([], inr ctx)
    /\ chart_pairs (Context.occupancy_chart_data ctx)
       = [("Studio", 0.5%Q); ("1BR", 1.0%Q)]
    /\ table_pairs (Context.table_data ctx)
       = [("Studio", 50.0%Q); ("1BR", 100.0%Q)].
Proof. eexists. repeat split. Qed.

(** X17. For a table without percentage column whose rows have a
    positive unit count and leased units between 0 and that count, every
    value of the occupancy chart and every occupancy of the display
    rows, of the formatter alone and of the formatter after the chart
    preparer, lies between 0 and 100. *)
Theorem derived_percentages_in_range {sorter : SortValues}
    {laws : SortValuesLaws sorter} (rows : list Row) :
  Forall (fun r => 0 < total_units r /\ 0 <= preleased r <= total_units r) rows ->
  let charts := fst (prepare_chart_data (Plain rows)) in
  let left := snd (prepare_chart_data (Plain rows)) in
  Forall in_percent_range (OccupancyChart.values (occupancy_chart charts))
  /\ Forall (fun t => in_percent_range (TableRow.occupancy t))
            (fst (prepare_table_data left))
  /\ Forall (fun t => in_percent_range (TableRow.occupancy t))
            (fst (prepare_table_data (Plain rows))).
Proof.
  intros Hall charts left. subst charts left.
  assert (Hres : Forall (fun rp => in_percent_range (snd rp))
                        (resolved (Plain rows))).
  { simpl. apply Forall_map. eapply Forall_impl; [|exact Hall].
    simpl. intros r [Hu Hp]. apply derived_pct_bounds; assumption. }
  split; [|split].
  - rewrite occupancy_chart_of_resolved. simpl. apply Forall_map.
    eapply Permutation_Forall; [apply sort_values_perm|exact Hres].
  - rewrite prepare_chart_data_frame, prepare_table_data_rows.
    apply Forall_map.
    change (Forall (fun rp => in_percent_range (snd rp))
                   (resolved (WithPct (resolved (Plain rows))))).
    remember (resolved (Plain rows)) as l eqn:El. clear El. simpl.
    destruct (max_le_1 (map snd l)) eqn:E; [|exact Hres].
    apply max_le_1_true in E. destruct E as [_ Hle].
    apply Forall_map. rewrite Forall_map in Hle.
    rewrite Forall_forall in *. intros rp Hin. simpl.
    destruct (Hres rp Hin) as [H0 _]. specialize (Hle rp Hin).
    apply (round_1_bounds _ 0 100).
    + change (inject_Z 0) with 0%Q. lra.
    + change (inject_Z 100) with 100%Q. lra.
  - rewrite prepare_table_data_rows. apply Forall_map. exact Hres.
Qed.

Lemma derived_percentages_in_range_witness :
  Forall in_percent_range
    (OccupancyChart.values
       (occupancy_chart (fst (@prepare_chart_data stable_sorter sample_data)))).
Proof.
  refine (proj1 (@derived_percentages_in_range stable_sorter stable_sorter_laws
                   (frame_rows sample_data) _)).
  repeat constructor; simpl; lia.
Defined.

(** X18. A file whose percentage column holds a value above 1 has its
    percentages shown as they are in the file, neither scaled nor
    rounded, by the display rows in file order and by the occupancy
    chart. *)
Theorem file_percentages_shown_unchanged {sorter : SortValues}
    {laws : SortValuesLaws sorter} (env : Env) (csv_path : option string)
    (out : list Event) (rows : list (Row * Q)) :
  load_data env csv_path = (out, inr (WithPct rows)) ->
  Exists (fun rp => (1 < snd rp)%Q) rows ->
  exists ctx,
    report_context env csv_path = (out, inr ctx)
    /\ table_pairs (Context.table_data ctx)
       = map (fun rp => (unit_type (fst rp), snd rp)) rows
    /\ Permutation (chart_pairs (Context.occupancy_chart_data ctx))
                   (map (fun rp => (unit_type (fst rp), snd rp)) rows).
Proof.
  intros Hload Hex. eexists.
  split; [apply report_context_of_loaded; exact Hload|].
  cbn [Context.occupancy_chart_data Context.table_data].
  pose proof (resolved_unchanged rows Hex) as Hres.
  split.
  - rewrite table_pairs_after_chart, Hres, (resolved_unchanged rows Hex).
    reflexivity.
  - rewrite <- Hres at 2. apply chart_pairs_resolved.
Qed.

Lemma file_percentages_shown_unchanged_witness :
  exists ctx,
    report_context (sorter := stable_sorter)
      (with_file empty_dir "data.csv" export_with_percentages) (Some "data.csv")
      = ([], inr ctx)
    /\ table_pairs (Context.table_data ctx)
       = [("Studio", 90.0%Q); ("1BR", 82.345%Q)].
Proof.
  destruct (@file_percentages_shown_unchanged stable_sorter stable_sorter_laws
              (with_file empty_dir "data.csv" export_with_percentages)
              (Some "data.csv") []
              [ (mkRow "Studio" 80 72 8 45 27, 90.0%Q);
                (mkRow "1BR" 150 123 27 70 53, 82.345%Q) ]
              eq_refl)
    as [ctx [Hc [Ht _]]].
  - apply Exists_cons_hd. reflexivity.
  - exists ctx. split; [exact Hc | exact Ht].
Defined.


